(** * prometheus-es-adapter: the adapter's entry point, [cmd/adapter/main.go]

    A shallow embedding of [main]: the parsed flags are a record, every call
    that leaves [main] (logger, AWS signer, elastic client, the services of
    [pkg/elasticsearch], the HTTP listeners) appends an event to a trace, and
    the results of those calls come from a [World] that answers each call
    from its arguments.  [log.Fatal] ends the process at once; a normal
    return runs the deferred calls in reverse order. *)

From Stdlib Require Import ZArith.
From stdpp Require Import base strings list gmap.

Open Scope string_scope.
Open Scope Z_scope.

(** ** Data: flags, configuration structs, client options *)

(** Go's [error] values, as the text they carry. *)
Definition Error := string.

(** The values behind the flag pointers once [flag.Parse] has returned,
    named after the Go variables of [main]. *)
Record Flags := {
  url : string;
  workers : Z;
  batchMaxAge : Z;
  batchMaxDocs : Z;
  batchMaxSize : Z;
  indexAlias : string;
  indexDaily : bool;
  indexShards : Z;
  indexReplicas : Z;
  indexMaxAge : string;
  indexMaxDocs : Z;
  indexMaxSize : string;
  searchMaxDocs : Z;
  sniffEnabled : bool;
  statsEnabled : bool;
  debug : bool
}.

(** What the command line and the environment supply, under the flags'
    own names; [None] where an option is not given. *)
Record CommandLine := {
  es_url : option string;
  es_workers : option Z;
  es_batch_max_age : option Z;
  es_batch_max_docs : option Z;
  es_batch_max_size : option Z;
  es_alias : option string;
  es_index_daily : option bool;
  es_index_shards : option Z;
  es_index_replicas : option Z;
  es_index_max_age : option string;
  es_index_max_docs : option Z;
  es_index_max_size : option string;
  es_search_max_docs : option Z;
  es_sniff : option bool;
  stats : option bool;
  debug_flag : option bool
}.

(** [flag.String], [flag.Int], [flag.Int64], [flag.Bool]: the declared
    default unless the option is given. *)
Definition flag_value {A : Type} (given : option A) (dflt : A) : A :=
  match given with
  | Some v => v
  | None => dflt
  end.

(** The [var ( ... )] block of [main] followed by [flag.Parse()]. *)
Definition flag_Parse (c : CommandLine) : Flags := {|
  url := flag_value (es_url c) "http://localhost:9200";
  workers := flag_value (es_workers c) 1;
  batchMaxAge := flag_value (es_batch_max_age c) 10;
  batchMaxDocs := flag_value (es_batch_max_docs c) 1000;
  batchMaxSize := flag_value (es_batch_max_size c) 4096;
  indexAlias := flag_value (es_alias c) "prom-metrics";
  indexDaily := flag_value (es_index_daily c) false;
  indexShards := flag_value (es_index_shards c) 5;
  indexReplicas := flag_value (es_index_replicas c) 1;
  indexMaxAge := flag_value (es_index_max_age c) "7d";
  indexMaxDocs := flag_value (es_index_max_docs c) 1000000;
  indexMaxSize := flag_value (es_index_max_size c) "";
  searchMaxDocs := flag_value (es_search_max_docs c) 1000;
  sniffEnabled := flag_value (es_sniff c) false;
  statsEnabled := flag_value (stats c) true;
  debug := flag_value (debug_flag c) false
|}.

(** A command line that gives no option at all. *)
Definition no_options : CommandLine := {|
  es_url := None; es_workers := None; es_batch_max_age := None;
  es_batch_max_docs := None; es_batch_max_size := None; es_alias := None;
  es_index_daily := None; es_index_shards := None;
  es_index_replicas := None; es_index_max_age := None;
  es_index_max_docs := None; es_index_max_size := None;
  es_search_max_docs := None; es_sniff := None; stats := None;
  debug_flag := None
|}.

Module IndexTemplateConfig.
Record t := { Alias : string; Shards : Z; Replicas : Z }.
End IndexTemplateConfig.

Module IndexConfig.
Record t := { Alias : string; MaxAge : string; MaxDocs : Z; MaxSize : string }.
End IndexConfig.

Module ReadConfig.
Record t := { Alias : string; MaxDocs : Z }.
End ReadConfig.

Module WriteConfig.
Record t := {
  Alias : string;
  Daily : bool;
  MaxAge : Z;
  MaxDocs : Z;
  MaxSize : Z;
  Workers : Z;
  Stats : bool
}.
End WriteConfig.

(** The [*http.Client] built by [aws_signing_client.New]. *)
Record HttpClient := { signed_service : string; signed_region : string }.

(** The option functions handed to [elastic.NewClient], in call order.
    [SetHttpClient None] is the call with a nil client. *)
Inductive ClientOptionFunc :=
| SetURL (u : string)
| SetScheme (s : string)
| SetHttpClient (c : option HttpClient)
| SetSniff (b : bool).

(** ** Events and the world *)

Inductive Event :=
| NewLogger (dbg : bool)
| LogInfo (msg : string)
| LogFatal (msg : string) (err : option Error)
| NewEnvCredentials
| NewSigner
| AwsSigningClientNew (service region : string)
| ElasticNewClient (opts : list ClientOptionFunc)
| ClientStop
| EnsureIndexTemplate (cfg : IndexTemplateConfig.t)
| NewIndexService (cfg : IndexConfig.t)
| NewReadService (cfg : ReadConfig.t)
| NewWriteService (cfg : WriteConfig.t)
| WriteServiceClose
| GoListenAndServe (addr : string)
| GracefulListenAndServe (addr : string)
    (writeSvc : WriteConfig.t) (readSvc : ReadConfig.t).

(** How a call of [graceful.ListenAndServe] ends.  It starts the server and
    blocks until a termination signal has shut the server down, then
    returns; while no signal has come it has not returned; and when the
    listener cannot be started (the address cannot be bound) the library
    itself ends the process with exit code 1, without coming back to
    [main]. *)
Inductive ServeOutcome :=
| ServerClosed
| StillServing
| ListenFailed.

(** Everything [main] reads from outside: the two build variables, the
    environment, what each fallible call returns for its arguments, and how
    [graceful.ListenAndServe] ends. *)
Record World := {
  Build : string;
  Commit : string;
  Getenv : string -> string;
  aws_signing_client_New : string -> string -> option HttpClient * option Error;
  elastic_NewClient : list ClientOptionFunc -> option Error;
  es_EnsureIndexTemplate : IndexTemplateConfig.t -> option Error;
  es_NewIndexService : IndexConfig.t -> option Error;
  es_NewWriteService : WriteConfig.t -> option Error;
  graceful_outcome : ServeOutcome
}.

(** ** The process monad *)

(** The calls made so far and the stack of deferred calls (last deferred
    first). *)
Record Proc := { events : list Event; deferred : list Event }.

(** A step of [main] goes on with a value, ends the process with
    [os.Exit(1)] from [log.Fatal] (deferred calls are not run), has not
    come back, or is a call in which the callee itself ended the process
    (deferred calls are not run either). *)
Inductive Step (A : Type) :=
| Next (a : A) (p : Proc)
| Exit1 (p : Proc)
| Blocked (p : Proc)
| Died (p : Proc).
Arguments Next {A} a p.
Arguments Exit1 {A} p.
Arguments Blocked {A} p.
Arguments Died {A} p.

Definition M (A : Type) := Proc -> Step A.

Definition ret {A : Type} (a : A) : M A := fun p => Next a p.

Definition bind {A B : Type} (m : M A) (k : A -> M B) : M B :=
  fun p =>
    match m p with
    | Next a p' => k a p'
    | Exit1 p' => Exit1 p'
    | Blocked p' => Blocked p'
    | Died p' => Died p'
    end.

Declare Scope proc_scope.
Delimit Scope proc_scope with proc.
Notation "x <- m ;; k" := (bind m (fun x => k))
  (at level 100, m at next level, right associativity) : proc_scope.
Notation "m ;; k" := (bind m (fun _ => k))
  (at level 100, right associativity) : proc_scope.

Definition emit (e : Event) : M unit :=
  fun p => Next tt {| events := events p ++ [e]; deferred := deferred p |}.

Definition defer (e : Event) : M unit :=
  fun p => Next tt {| events := events p; deferred := e :: deferred p |}.

(** Modelled from the spec: [logger.NewLogger] lives in [pkg/logger], which
    is not among the sources; its [Fatal] writes the entry and aborts the
    process ("fatal-startup errors abort the process"). *)
Definition log_Fatal {A : Type} (msg : string) (err : option Error) : M A :=
  fun p => Exit1 {| events := events p ++ [LogFatal msg err]; deferred := deferred p |}.

(** [if err != nil { log.Fatal(msg, zap.Error(err)) }] *)
Definition fatal_if_err (err : option Error) (msg : string) : M unit :=
  match err with
  | Some e => log_Fatal msg (Some e)
  | None => ret tt
  end.

(** [graceful.ListenAndServe(&http.Server{Addr: addr, Handler: ...})] with
    the router built over the two services. *)
Definition graceful_ListenAndServe (w : World) (addr : string)
    (writeSvc : WriteConfig.t) (readSvc : ReadConfig.t) : M unit :=
  fun p =>
    let p' := {| events := events p ++ [GracefulListenAndServe addr writeSvc readSvc];
                 deferred := deferred p |} in
    match graceful_outcome w with
    | ServerClosed => Next tt p'
    | StillServing => Blocked p'
    | ListenFailed => Died p'
    end.

(** ** [main] *)

Definition main_body (f : Flags) (w : World) : M unit :=
  (emit (NewLogger (debug f)) ;;
   emit (LogInfo ("Starting commit: " ++ Commit w ++ ", build: " ++ Build w)) ;;
   (if String.eqb (url f) "" then log_Fatal "missing url" None else ret tt) ;;
   emit NewEnvCredentials ;;
   emit NewSigner ;;
   emit (AwsSigningClientNew "es" (Getenv w "AWS_REGION")) ;;
   let '(awsClient, err) := aws_signing_client_New w "es" (Getenv w "AWS_REGION") in
   let opts := [SetURL (url f); SetScheme "https";
                SetHttpClient awsClient; SetSniff (sniffEnabled f)] in
   emit (ElasticNewClient opts) ;;
   let err := elastic_NewClient w opts in
   fatal_if_err err "Failed to create elastic client" ;;
   defer ClientStop ;;
   let templateCfg := {| IndexTemplateConfig.Alias := indexAlias f;
                         IndexTemplateConfig.Shards := indexShards f;
                         IndexTemplateConfig.Replicas := indexReplicas f |} in
   emit (EnsureIndexTemplate templateCfg) ;;
   let err := es_EnsureIndexTemplate w templateCfg in
   fatal_if_err err "Failed to create index template" ;;
   (if negb (indexDaily f) then
      let indexCfg := {| IndexConfig.Alias := indexAlias f;
                         IndexConfig.MaxAge := indexMaxAge f;
                         IndexConfig.MaxDocs := indexMaxDocs f;
                         IndexConfig.MaxSize := indexMaxSize f |} in
      emit (NewIndexService indexCfg) ;;
      let err := es_NewIndexService w indexCfg in
      fatal_if_err err "Failed to create indexer"
    else ret tt) ;;
   let readCfg := {| ReadConfig.Alias := indexAlias f;
                     ReadConfig.MaxDocs := searchMaxDocs f |} in
   emit (NewReadService readCfg) ;;
   let writeCfg := {| WriteConfig.Alias := indexAlias f;
                      WriteConfig.Daily := indexDaily f;
                      WriteConfig.MaxAge := batchMaxAge f;
                      WriteConfig.MaxDocs := batchMaxDocs f;
                      WriteConfig.MaxSize := batchMaxSize f;
                      WriteConfig.Workers := workers f;
                      WriteConfig.Stats := statsEnabled f |} in
   emit (NewWriteService writeCfg) ;;
   let err := es_NewWriteService w writeCfg in
   fatal_if_err err "Unable to create elasticsearch adapter:" ;;
   defer WriteServiceClose ;;
   emit (GoListenAndServe ":9000") ;;
   graceful_ListenAndServe w ":8000" writeCfg readCfg)%proc.

(** How the process ended. *)
Inductive Status :=
| Returned   (* main returned, its deferred calls ran *)
| Fatal      (* log.Fatal: exit code 1, no deferred call ran *)
| Serving    (* graceful.ListenAndServe has not returned to main *)
| ListenExit. (* graceful.ListenAndServe ended the process: exit code 1,
                 no fatal entry of main, no deferred call ran *)

Record Outcome := { trace : list Event; status : Status }.

Definition main (f : Flags) (w : World) : Outcome :=
  match main_body f w {| events := []; deferred := [] |} with
  | Next _ p => {| trace := events p ++ deferred p; status := Returned |}
  | Exit1 p => {| trace := events p; status := Fatal |}
  | Blocked p => {| trace := events p; status := Serving |}
  | Died p => {| trace := events p; status := ListenExit |}
  end.

(** ** The structs and option list [main] builds, as functions of the flags *)

Definition templateCfg (f : Flags) : IndexTemplateConfig.t :=
  {| IndexTemplateConfig.Alias := indexAlias f;
     IndexTemplateConfig.Shards := indexShards f;
     IndexTemplateConfig.Replicas := indexReplicas f |}.

Definition indexCfg (f : Flags) : IndexConfig.t :=
  {| IndexConfig.Alias := indexAlias f;
     IndexConfig.MaxAge := indexMaxAge f;
     IndexConfig.MaxDocs := indexMaxDocs f;
     IndexConfig.MaxSize := indexMaxSize f |}.

Definition readCfg (f : Flags) : ReadConfig.t :=
  {| ReadConfig.Alias := indexAlias f;
     ReadConfig.MaxDocs := searchMaxDocs f |}.

Definition writeCfg (f : Flags) : WriteConfig.t :=
  {| WriteConfig.Alias := indexAlias f;
     WriteConfig.Daily := indexDaily f;
     WriteConfig.MaxAge := batchMaxAge f;
     WriteConfig.MaxDocs := batchMaxDocs f;
     WriteConfig.MaxSize := batchMaxSize f;
     WriteConfig.Workers := workers f;
     WriteConfig.Stats := statsEnabled f |}.

Definition awsClient (w : World) : option HttpClient :=
  fst (aws_signing_client_New w "es" (Getenv w "AWS_REGION")).

Definition clientOpts (f : Flags) (w : World) : list ClientOptionFunc :=
  [SetURL (url f); SetScheme "https"; SetHttpClient (awsClient w);
   SetSniff (sniffEnabled f)].

(** The calls of a run, phase by phase. *)
Definition ev_logger (f : Flags) (w : World) : list Event :=
  [NewLogger (debug f);
   LogInfo ("Starting commit: " ++ Commit w ++ ", build: " ++ Build w)].

Definition ev_client (f : Flags) (w : World) : list Event :=
  ev_logger f w ++
  [NewEnvCredentials; NewSigner;
   AwsSigningClientNew "es" (Getenv w "AWS_REGION");
   ElasticNewClient (clientOpts f w)].

Definition ev_template (f : Flags) (w : World) : list Event :=
  ev_client f w ++ [EnsureIndexTemplate (templateCfg f)].

Definition ev_index (f : Flags) (w : World) : list Event :=
  ev_template f w ++
  (if indexDaily f then [] else [NewIndexService (indexCfg f)]).

Definition ev_write (f : Flags) (w : World) : list Event :=
  ev_index f w ++ [NewReadService (readCfg f); NewWriteService (writeCfg f)].

Definition ev_serve (f : Flags) (w : World) : list Event :=
  ev_write f w ++
  [GoListenAndServe ":9000";
   GracefulListenAndServe ":8000" (writeCfg f) (readCfg f)].

(** The error the threshold-based index service returns, [None] also when
    daily mode skips it. *)
Definition index_err (f : Flags) (w : World) : option Error :=
  if indexDaily f then None else es_NewIndexService w (indexCfg f).

(** The closed form of [main]: where it stops and what it has called. *)
Definition main_unfolded (f : Flags) (w : World) : Outcome :=
  if String.eqb (url f) "" then
    {| trace := ev_logger f w ++ [LogFatal "missing url" None]; status := Fatal |}
  else match elastic_NewClient w (clientOpts f w) with
  | Some e =>
    {| trace := ev_client f w ++ [LogFatal "Failed to create elastic client" (Some e)];
       status := Fatal |}
  | None =>
  match es_EnsureIndexTemplate w (templateCfg f) with
  | Some e =>
    {| trace := ev_template f w ++ [LogFatal "Failed to create index template" (Some e)];
       status := Fatal |}
  | None =>
  match index_err f w with
  | Some e =>
    {| trace := ev_index f w ++ [LogFatal "Failed to create indexer" (Some e)];
       status := Fatal |}
  | None =>
  match es_NewWriteService w (writeCfg f) with
  | Some e =>
    {| trace := ev_write f w ++
                [LogFatal "Unable to create elasticsearch adapter:" (Some e)];
       status := Fatal |}
  | None =>
    match graceful_outcome w with
    | ServerClosed =>
      {| trace := ev_serve f w ++ [WriteServiceClose; ClientStop]; status := Returned |}
    | StillServing => {| trace := ev_serve f w; status := Serving |}
    | ListenFailed => {| trace := ev_serve f w; status := ListenExit |}
    end
  end end end end.

(** A world in which every call succeeds and the server is shut down
    gracefully, and variations of it. *)
Definition calm_world : World := {|
  Build := "1"; Commit := "abc";
  Getenv := fun _ => "eu-west-1";
  aws_signing_client_New := fun s r =>
    (Some {| signed_service := s; signed_region := r |}, None);
  elastic_NewClient := fun _ => None;
  es_EnsureIndexTemplate := fun _ => None;
  es_NewIndexService := fun _ => None;
  es_NewWriteService := fun _ => None;
  graceful_outcome := ServerClosed
|}.

Definition default_flags : Flags := flag_Parse no_options.

(** ** Observations on a run *)

(** The public listener, the one on [:8000]. *)
Definition is_write_listener (e : Event) : bool :=
  match e with
  | GracefulListenAndServe addr _ _ => String.eqb addr ":8000"
  | _ => false
  end.

Definition listening (o : Outcome) : bool := existsb is_write_listener (trace o).

Definition is_index_service (e : Event) : bool :=
  match e with
  | NewIndexService _ => true
  | _ => false
  end.

Definition index_service_constructed (o : Outcome) : bool :=
  existsb is_index_service (trace o).

(** A startup call that was made and came back with an error. *)
Definition failed_call (w : World) (e : Event) : Prop :=
  match e with
  | EnsureIndexTemplate cfg => es_EnsureIndexTemplate w cfg <> None
  | NewIndexService cfg => es_NewIndexService w cfg <> None
  | NewWriteService cfg => es_NewWriteService w cfg <> None
  | _ => False
  end.

(** Startup got past client creation and template provisioning, that is,
    as far as the [if !*indexDaily] statement. *)
Definition reaches_lifecycle (f : Flags) (w : World) : Prop :=
  url f <> "" /\
  elastic_NewClient w (clientOpts f w) = None /\
  es_EnsureIndexTemplate w (templateCfg f) = None.

(** Every index or alias name a call is given. *)
Definition names_given (e : Event) : list string :=
  match e with
  | EnsureIndexTemplate cfg => [IndexTemplateConfig.Alias cfg]
  | NewIndexService cfg => [IndexConfig.Alias cfg]
  | NewReadService cfg => [ReadConfig.Alias cfg]
  | NewWriteService cfg => [WriteConfig.Alias cfg]
  | GracefulListenAndServe _ wc rc => [WriteConfig.Alias wc; ReadConfig.Alias rc]
  | _ => []
  end.

(** What each call must carry for the options of command line [c] to be
    routed to their consumers. *)
Definition routed (c : CommandLine) (w : World) (e : Event) : Prop :=
  match e with
  | NewLogger dbg => dbg = flag_value (debug_flag c) false
  | ElasticNewClient opts =>
      opts = [SetURL (flag_value (es_url c) "http://localhost:9200");
              SetScheme "https";
              SetHttpClient (awsClient w);
              SetSniff (flag_value (es_sniff c) false)]
  | EnsureIndexTemplate cfg =>
      cfg = {| IndexTemplateConfig.Alias := flag_value (es_alias c) "prom-metrics";
               IndexTemplateConfig.Shards := flag_value (es_index_shards c) 5;
               IndexTemplateConfig.Replicas := flag_value (es_index_replicas c) 1 |}
  | NewIndexService cfg =>
      flag_value (es_index_daily c) false = false /\
      cfg = {| IndexConfig.Alias := flag_value (es_alias c) "prom-metrics";
               IndexConfig.MaxAge := flag_value (es_index_max_age c) "7d";
               IndexConfig.MaxDocs := flag_value (es_index_max_docs c) 1000000;
               IndexConfig.MaxSize := flag_value (es_index_max_size c) "" |}
  | NewReadService cfg =>
      cfg = {| ReadConfig.Alias := flag_value (es_alias c) "prom-metrics";
               ReadConfig.MaxDocs := flag_value (es_search_max_docs c) 1000 |}
  | NewWriteService cfg =>
      cfg = {| WriteConfig.Alias := flag_value (es_alias c) "prom-metrics";
               WriteConfig.Daily := flag_value (es_index_daily c) false;
               WriteConfig.MaxAge := flag_value (es_batch_max_age c) 10;
               WriteConfig.MaxDocs := flag_value (es_batch_max_docs c) 1000;
               WriteConfig.MaxSize := flag_value (es_batch_max_size c) 4096;
               WriteConfig.Workers := flag_value (es_workers c) 1;
               WriteConfig.Stats := flag_value (stats c) true |}
  | _ => True
  end.

(** The calls a started adapter has made on behalf of the options. *)
Definition consumers (f : Flags) (w : World) : list Event :=
  [ElasticNewClient (clientOpts f w); EnsureIndexTemplate (templateCfg f);
   NewReadService (readCfg f); NewWriteService (writeCfg f)] ++
  (if indexDaily f then [] else [NewIndexService (indexCfg f)]).

(** The scheme options among the options of a client. *)
Definition schemes (opts : list ClientOptionFunc) : list string :=
  flat_map (fun o => match o with SetScheme s => [s] | _ => [] end) opts.

Definition client_schemes (e : Event) : list string :=
  match e with
  | ElasticNewClient opts => schemes opts
  | _ => []
  end.

Definition is_new_client (e : Event) : bool :=
  match e with
  | ElasticNewClient _ => true
  | _ => false
  end.

(** The URL options among the options of a client: the endpoints the
    client is pointed at. *)
Definition endpoints (opts : list ClientOptionFunc) : list string :=
  flat_map (fun o => match o with SetURL u => [u] | _ => [] end) opts.

Definition client_endpoints (e : Event) : list string :=
  match e with
  | ElasticNewClient opts => endpoints opts
  | _ => []
  end.

(** The scheme a URL is written with: what stands before "://". *)
Definition url_scheme (u : string) : string :=
  match String.index 0 "://" u with
  | Some n => String.substring 0 n u
  | None => ""
  end.

(** The same world, except that [aws_signing_client.New] reports no error
    (it returns the same client value). *)
Definition without_signing_error (w : World) : World := {|
  Build := Build w;
  Commit := Commit w;
  Getenv := Getenv w;
  aws_signing_client_New := fun s r => (fst (aws_signing_client_New w s r), None);
  elastic_NewClient := elastic_NewClient w;
  es_EnsureIndexTemplate := es_EnsureIndexTemplate w;
  es_NewIndexService := es_NewIndexService w;
  es_NewWriteService := es_NewWriteService w;
  graceful_outcome := graceful_outcome w
|}.

(** The error [aws_signing_client.New] returns in world [w]. *)
Definition signing_error (w : World) : option Error :=
  snd (aws_signing_client_New w "es" (Getenv w "AWS_REGION")).

(** The calls made once [graceful.ListenAndServe] has been entered. *)
Fixpoint shutdown_calls (t : list Event) : list Event :=
  match t with
  | [] => []
  | e :: t' => if is_write_listener e then t' else shutdown_calls t'
  end.

(** ** [pkg/elasticsearch], as the specification describes it

    The package behind [EnsureIndexTemplate], [NewReadService] and
    [NewWriteService] is not among the sources.  What the claims need of it
    is modelled here from the specification: the store with its index
    templates and documents, template provisioning, the capped read, and
    the closing of the write pipeline. *)
Module elasticsearch.
Section Model.

(** The type of sample values (floating point in the store). *)
Variable Value : Type.

(** Modelled from the spec: the Sample of the data model (metric name,
    label set with unique keys, millisecond timestamp, value). *)
Record Sample := {
  metric : string;
  labels : gmap string string;
  timestamp : Z;
  value : Value
}.

(** Modelled from the spec: the IndexTemplate of the data model, applied
    to any index matching the alias's naming pattern. *)
Record IndexTemplate := { pattern : string; shards : Z; replicas : Z }.

(** Modelled from the spec: the store sink, reduced to what template
    provisioning and reads observe: whether it answers, its templates by
    name, and the documents behind each alias. *)
Record Store := {
  available : bool;
  templates : gmap string IndexTemplate;
  documents : gmap string (list Sample)
}.

(** Modelled from the spec: the body of [EnsureIndexTemplate], absent
    from the sources.  It puts the template of the alias, with the
    configured shard and replica counts, into the store; an unavailable
    store gives an error and keeps its state. *)
Definition EnsureIndexTemplate (cfg : IndexTemplateConfig.t) (st : Store)
    : option Error * Store :=
  if available st then
    (None,
     {| available := available st;
        templates :=
          <[IndexTemplateConfig.Alias cfg :=
              {| pattern := IndexTemplateConfig.Alias cfg ++ "-*";
                 shards := IndexTemplateConfig.Shards cfg;
                 replicas := IndexTemplateConfig.Replicas cfg |}]> (templates st);
        documents := documents st |})
  else (Some "store unavailable", st).

(** The store after [n] further applications of the same template. *)
Fixpoint reapply (n : nat) (cfg : IndexTemplateConfig.t) (st : Store) : Store :=
  match n with
  | O => st
  | S n' => reapply n' cfg (snd (EnsureIndexTemplate cfg st))
  end.

(** The errors of [n] successive applications of the same template. *)
Fixpoint reapply_errors (n : nat) (cfg : IndexTemplateConfig.t) (st : Store)
    : list (option Error) :=
  match n with
  | O => []
  | S n' =>
      fst (EnsureIndexTemplate cfg st) ::
      reapply_errors n' cfg (snd (EnsureIndexTemplate cfg st))
  end.

(** Modelled from the spec: a read query, a time range and a set of
    label matchers. *)
Record Query := {
  start_ms : Z;
  end_ms : Z;
  matchers : list (Sample -> bool)
}.

Definition matches (q : Query) (s : Sample) : bool :=
  (start_ms q <=? timestamp s) && (timestamp s <=? end_ms q) &&
  forallb (fun m => m s) (matchers q).

(** The documents behind [alias] that the query matches. *)
Definition matching (st : Store) (alias : string) (q : Query) : list Sample :=
  List.filter (matches q) (default [] (documents st !! alias)).

(** Modelled from the spec: the read of the service [NewReadService]
    builds, absent from the sources.  The store query is scoped to the
    alias of the configuration and the store itself returns no more than
    [MaxDocs] hits. *)
Definition Read (cfg : ReadConfig.t) (st : Store) (q : Query) : list Sample :=
  take (Z.to_nat (ReadConfig.MaxDocs cfg)) (matching st (ReadConfig.Alias cfg) q).

(** Modelled from the spec: the write pipeline behind [NewWriteService],
    absent from the sources: whether the accumulator accepts samples, its
    current batch, the intake queue of the worker pool, the samples
    written to the store, and the samples reported as lost. *)
Record WriteService := {
  accepting : bool;
  batch : list Sample;
  intake : list (list Sample);
  written : list Sample;
  lost : list Sample
}.

(** Modelled from the spec: what a shutdown cannot choose: which documents
    the store accepts in the final writes (a tagged result per document),
    and how many queued batches the workers reach before the hard timeout
    that bounds the drain. *)
Record Shutdown := {
  accepted : Sample -> bool;
  within_deadline : nat
}.

Definition stop_accepting (ws : WriteService) : WriteService :=
  {| accepting := false; batch := batch ws; intake := intake ws;
     written := written ws; lost := lost ws |}.

(** The current partial batch goes to the intake queue; an empty batch
    is not flushed. *)
Definition flush (ws : WriteService) : WriteService :=
  match batch ws with
  | [] => ws
  | b => {| accepting := accepting ws; batch := [];
            intake := intake ws ++ [b];
            written := written ws; lost := lost ws |}
  end.

(** The workers take the queued batches in order.  Of a batch reached
    before the deadline, the documents the store accepts are written and
    the others are reported as dropped (a best-effort write); the batches
    not reached when the deadline passes are reported as lost.  Nothing
    stays in the queue. *)
Definition drain (sd : Shutdown) (ws : WriteService) : WriteService :=
  let reached := concat (take (within_deadline sd) (intake ws)) in
  let undrained := concat (drop (within_deadline sd) (intake ws)) in
  {| accepting := accepting ws; batch := batch ws; intake := [];
     written := written ws ++ List.filter (accepted sd) reached;
     lost := lost ws ++
             List.filter (fun s => negb (accepted sd s)) reached ++ undrained |}.

(** Modelled from the spec: [Close] of the write service, absent from
    the sources: "the accumulator must stop accepting new samples, flush
    its current partial batch as a final best-effort write, and the
    worker pool must drain its intake queue before the process exits -- a
    hard timeout bounds this drain [...], after which any undrained batch
    is reported as lost". *)
Definition Close (sd : Shutdown) (ws : WriteService) : WriteService :=
  drain sd (flush (stop_accepting ws)).

(** What a call of [main] does to the write pipeline. *)
Definition after_call (sd : Shutdown) (ws : WriteService) (e : Event)
    : WriteService :=
  match e with
  | WriteServiceClose => Close sd ws
  | _ => ws
  end.

Definition after_calls (sd : Shutdown) (ws : WriteService) (t : list Event)
    : WriteService :=
  fold_left (after_call sd) t ws.

End Model.

Arguments metric {Value} _.
Arguments labels {Value} _.
Arguments timestamp {Value} _.
Arguments value {Value} _.
Arguments available {Value} _.
Arguments templates {Value} _.
Arguments documents {Value} _.
Arguments EnsureIndexTemplate {Value} cfg st.
Arguments reapply {Value} n cfg st.
Arguments reapply_errors {Value} n cfg st.
Arguments start_ms {Value} _.
Arguments end_ms {Value} _.
Arguments matchers {Value} _.
Arguments matches {Value} q s.
Arguments matching {Value} st alias q.
Arguments Read {Value} cfg st q.
Arguments accepting {Value} _.
Arguments batch {Value} _.
Arguments intake {Value} _.
Arguments written {Value} _.
Arguments lost {Value} _.
Arguments accepted {Value} _ _.
Arguments within_deadline {Value} _.
Arguments stop_accepting {Value} ws.
Arguments flush {Value} ws.
Arguments drain {Value} sd ws.
Arguments Close {Value} sd ws.
Arguments after_call {Value} sd ws e.
Arguments after_calls {Value} sd ws t.

End elasticsearch.

(** The read configurations a call is given. *)
Definition read_configs (e : Event) : list ReadConfig.t :=
  match e with
  | NewReadService cfg => [cfg]
  | GracefulListenAndServe _ _ rc => [rc]
  | _ => []
  end.

(** ** Sample inputs

    Command lines, worlds, stores and pipelines on which the results below
    are exercised. *)

(** [es_url] given as the empty string. *)
Definition empty_url_options : CommandLine := {|
  es_url := Some ""; es_workers := None; es_batch_max_age := None;
  es_batch_max_docs := None; es_batch_max_size := None; es_alias := None;
  es_index_daily := None; es_index_shards := None;
  es_index_replicas := None; es_index_max_age := None;
  es_index_max_docs := None; es_index_max_size := None;
  es_search_max_docs := None; es_sniff := None; stats := None;
  debug_flag := None
|}.

(** Daily mode switched on. *)
Definition daily_options : CommandLine := {|
  es_url := None; es_workers := None; es_batch_max_age := None;
  es_batch_max_docs := None; es_batch_max_size := None; es_alias := None;
  es_index_daily := Some true; es_index_shards := None;
  es_index_replicas := None; es_index_max_age := None;
  es_index_max_docs := None; es_index_max_size := None;
  es_search_max_docs := None; es_sniff := None; stats := None;
  debug_flag := None
|}.

(** Every option given, none at its default. *)
Definition all_options : CommandLine := {|
  es_url := Some "https://search.example:443"; es_workers := Some 4;
  es_batch_max_age := Some 5; es_batch_max_docs := Some 500;
  es_batch_max_size := Some 8192; es_alias := Some "metrics";
  es_index_daily := Some false; es_index_shards := Some 3;
  es_index_replicas := Some 2; es_index_max_age := Some "1d";
  es_index_max_docs := Some 50000; es_index_max_size := Some "5gb";
  es_search_max_docs := Some 200; es_sniff := Some true; stats := Some false;
  debug_flag := Some true
|}.

(** A read cap of two documents. *)
Definition cap_two_options : CommandLine := {|
  es_url := None; es_workers := None; es_batch_max_age := None;
  es_batch_max_docs := None; es_batch_max_size := None; es_alias := None;
  es_index_daily := None; es_index_shards := None;
  es_index_replicas := None; es_index_max_age := None;
  es_index_max_docs := None; es_index_max_size := None;
  es_search_max_docs := Some 2; es_sniff := None; stats := None;
  debug_flag := None
|}.

(** The store refuses the index template. *)
Definition broken_template_world : World := {|
  Build := "1"; Commit := "abc";
  Getenv := fun _ => "eu-west-1";
  aws_signing_client_New := fun s r =>
    (Some {| signed_service := s; signed_region := r |}, None);
  elastic_NewClient := fun _ => None;
  es_EnsureIndexTemplate := fun _ => Some "put template: 403";
  es_NewIndexService := fun _ => None;
  es_NewWriteService := fun _ => None;
  graceful_outcome := ServerClosed
|}.

(** No AWS region: the signing client cannot be built. *)
Definition failing_signer_world : World := {|
  Build := "1"; Commit := "abc";
  Getenv := fun _ => "";
  aws_signing_client_New := fun _ _ => (None, Some "a region is required");
  elastic_NewClient := fun _ => None;
  es_EnsureIndexTemplate := fun _ => None;
  es_NewIndexService := fun _ => None;
  es_NewWriteService := fun _ => None;
  graceful_outcome := ServerClosed
|}.

(** A reachable store with no template and no document. *)
Definition empty_store : elasticsearch.Store Z :=
  elasticsearch.Build_Store Z true ∅ ∅.

Definition sample_at (t : Z) : elasticsearch.Sample Z :=
  elasticsearch.Build_Sample Z "up" ∅ t 1.

(** Four samples behind the default alias. *)
Definition small_store : elasticsearch.Store Z :=
  elasticsearch.Build_Store Z true ∅
    {[ "prom-metrics" := [sample_at 10; sample_at 20; sample_at 30; sample_at 40] ]}.

Definition whole_range : elasticsearch.Query Z :=
  elasticsearch.Build_Query Z 0 100 [].

(** A pipeline with a partial batch, two queued batches, two written
    samples and nothing lost so far. *)
Definition busy_pipeline : elasticsearch.WriteService Z :=
  elasticsearch.Build_WriteService Z true
    [sample_at 60] [[sample_at 30; sample_at 40]; [sample_at 50]]
    [sample_at 10; sample_at 20] [].

(** A shutdown in which the workers reach two batches before the deadline
    and the store rejects the sample of time 40. *)
Definition short_shutdown : elasticsearch.Shutdown Z :=
  elasticsearch.Build_Shutdown Z
    (fun s => negb (elasticsearch.timestamp s =? 40)) 2.

(** A read cap below zero. *)
Definition negative_cap_options : CommandLine := {|
  es_url := None; es_workers := None; es_batch_max_age := None;
  es_batch_max_docs := None; es_batch_max_size := None; es_alias := None;
  es_index_daily := None; es_index_shards := None;
  es_index_replicas := None; es_index_max_age := None;
  es_index_max_docs := None; es_index_max_size := None;
  es_search_max_docs := Some (-5); es_sniff := None; stats := None;
  debug_flag := None
|}.

(** ** Further observations on a run *)

Definition is_fatal (e : Event) : bool :=
  match e with
  | LogFatal _ _ => true
  | _ => false
  end.

(** The calls [main] registers with [defer]. *)
Definition is_deferred_call (e : Event) : bool :=
  match e with
  | ClientStop | WriteServiceClose => true
  | _ => false
  end.

(** The admin listener, the one on [:9000]. *)
Definition is_admin_listener (e : Event) : bool :=
  match e with
  | GoListenAndServe addr => String.eqb addr ":9000"
  | _ => false
  end.

(** The calls of a run in which nothing fails and the server is shut
    down, in program order. *)
Definition full_run (f : Flags) (w : World) : list Event :=
  ev_serve f w ++ [WriteServiceClose; ClientStop].

(** Why a fatal entry with message [msg] and error [err] is written: which
    test of [main] failed, and on which returned error. *)
Definition fatal_cause (f : Flags) (w : World) (msg : string)
    (err : option Error) : Prop :=
  (msg = "missing url" /\ err = None /\ url f = "") \/
  (msg = "Failed to create elastic client" /\ err <> None /\
     err = elastic_NewClient w (clientOpts f w)) \/
  (msg = "Failed to create index template" /\ err <> None /\
     err = es_EnsureIndexTemplate w (templateCfg f)) \/
  (msg = "Failed to create indexer" /\ err <> None /\ indexDaily f = false /\
     err = es_NewIndexService w (indexCfg f)) \/
  (msg = "Unable to create elasticsearch adapter:" /\ err <> None /\
     err = es_NewWriteService w (writeCfg f)).

Definition explained (f : Flags) (w : World) (e : Event) : Prop :=
  match e with
  | LogFatal msg err => fatal_cause f w msg err
  | _ => True
  end.

(** The same world with another answer of [NewIndexService]. *)
Definition with_NewIndexService (w : World)
    (svc : IndexConfig.t -> option Error) : World := {|
  Build := Build w;
  Commit := Commit w;
  Getenv := Getenv w;
  aws_signing_client_New := aws_signing_client_New w;
  elastic_NewClient := elastic_NewClient w;
  es_EnsureIndexTemplate := es_EnsureIndexTemplate w;
  es_NewIndexService := svc;
  es_NewWriteService := es_NewWriteService w;
  graceful_outcome := graceful_outcome w
|}.

(** The store cannot be reached: no client. *)
Definition unreachable_store_world : World := {|
  Build := "1"; Commit := "abc";
  Getenv := fun _ => "eu-west-1";
  aws_signing_client_New := fun s r =>
    (Some {| signed_service := s; signed_region := r |}, None);
  elastic_NewClient := fun _ => Some "no Elasticsearch node available";
  es_EnsureIndexTemplate := fun _ => None;
  es_NewIndexService := fun _ => None;
  es_NewWriteService := fun _ => None;
  graceful_outcome := ServerClosed
|}.

(** The port of the public listener is taken. *)
Definition port_taken_world : World := {|
  Build := "1"; Commit := "abc";
  Getenv := fun _ => "eu-west-1";
  aws_signing_client_New := fun s r =>
    (Some {| signed_service := s; signed_region := r |}, None);
  elastic_NewClient := fun _ => None;
  es_EnsureIndexTemplate := fun _ => None;
  es_NewIndexService := fun _ => None;
  es_NewWriteService := fun _ => None;
  graceful_outcome := ListenFailed
|}.

(** ** The closed form is the program *)

Lemma main_eq (f : Flags) (w : World) : main f w = main_unfolded f w.
Proof.
  unfold main, main_unfolded, main_body, bind, emit, defer, fatal_if_err,
    log_Fatal, ret, graceful_ListenAndServe, index_err, ev_serve, ev_write,
    ev_index, ev_template, ev_client, ev_logger, clientOpts, awsClient,
    templateCfg, indexCfg, readCfg, writeCfg.
  destruct (String.eqb (url f) ""); [reflexivity|].
  destruct (aws_signing_client_New w "es" (Getenv w "AWS_REGION")) as [c e0]; simpl.
  destruct (elastic_NewClient w _); [reflexivity|]; simpl.
  destruct (es_EnsureIndexTemplate w _); [reflexivity|]; simpl.
  destruct (indexDaily f); simpl.
  - destruct (es_NewWriteService w _); [reflexivity|]; simpl.
    destruct (graceful_outcome w); reflexivity.
  - destruct (es_NewIndexService w _); [reflexivity|]; simpl.
    destruct (es_NewWriteService w _); [reflexivity|]; simpl.
    destruct (graceful_outcome w); reflexivity.
Qed.

(** ** Tactics for runs *)

(** Split a run on every test [main] makes. *)
Ltac run_cases f w :=
  rewrite ?main_eq; unfold main_unfolded, index_err;
  destruct (String.eqb_spec (url f) "");
  [| destruct (elastic_NewClient w (clientOpts f w)) eqn:?;
     [| destruct (es_EnsureIndexTemplate w (templateCfg f)) eqn:?;
        [| destruct (indexDaily f) eqn:?;
           [| destruct (es_NewIndexService w (indexCfg f)) eqn:? ];
           (try (destruct (es_NewWriteService w (writeCfg f)) eqn:?;
                 [| destruct (graceful_outcome w) eqn:? ])) ] ] ].

(** Lay the trace of a case out as an explicit list. *)
Ltac lay_out :=
  unfold ev_serve, ev_write, ev_index, ev_template, ev_client, ev_logger in *;
  try match goal with H : indexDaily _ = _ |- _ => rewrite ?H end;
  cbn [app trace status].

(** ** Startup failures *)

Lemma url_empty_run (f : Flags) (w : World) :
  url f = "" ->
  main f w = {| trace := ev_logger f w ++ [LogFatal "missing url" None];
                status := Fatal |}.
Proof.
  intros H. rewrite main_eq. unfold main_unfolded. rewrite H. reflexivity.
Qed.

(** C10: when [es_url] resolves to the empty string (given so on the
    command line or in the environment), the run consists of the logger
    creation, the start-up line and the fatal entry "missing url", and the
    process exits: no credentials, no signing client, no store client, no
    template and no service is ever touched. *)
Theorem missing_url_aborts_first (c : CommandLine) (w : World) :
  es_url c = Some "" ->
  main (flag_Parse c) w =
    {| trace := [NewLogger (flag_value (debug_flag c) false);
                 LogInfo ("Starting commit: " ++ Commit w ++ ", build: " ++ Build w);
                 LogFatal "missing url" None];
       status := Fatal |}.
Proof.
  intros H. rewrite url_empty_run.
  - reflexivity.
  - cbn. rewrite H. reflexivity.
Qed.

Lemma missing_url_aborts_first_witness :
  es_url empty_url_options = Some "" /\
  main (flag_Parse empty_url_options) calm_world =
    {| trace := [NewLogger false; LogInfo "Starting commit: abc, build: 1";
                 LogFatal "missing url" None];
       status := Fatal |}.
Proof.
  split; [reflexivity|].
  exact (missing_url_aborts_first empty_url_options calm_world eq_refl).
Defined.

(** C1: a start-up call (template provisioning, index service, write
    service) that was made and returned an error ends the run in
    [log.Fatal] with the listener on [:8000] never started; and whenever
    that listener is started, [EnsureIndexTemplate], [NewIndexService]
    (unless daily mode skips it) and [NewWriteService] have all returned
    without error. *)
Theorem listener_only_after_clean_startup (f : Flags) (w : World) :
  ((exists e, In e (trace (main f w)) /\ failed_call w e) ->
     status (main f w) = Fatal /\ listening (main f w) = false) /\
  (listening (main f w) = true ->
     es_EnsureIndexTemplate w (templateCfg f) = None /\
     (indexDaily f = false -> es_NewIndexService w (indexCfg f) = None) /\
     es_NewWriteService w (writeCfg f) = None).
Proof.
  split.
  - intros (e & Hin & Hfail). revert Hin.
    run_cases f w; lay_out; unfold listening; cbn; intros Hin;
      try (split; reflexivity);
      exfalso; revert Hfail;
      repeat (destruct Hin as [<- | Hin]; [cbn; try tauto; congruence|]);
      destruct Hin.
  - run_cases f w; lay_out; unfold listening; cbn; try discriminate;
      intros _; repeat split; auto; congruence.
Qed.

Lemma listener_only_after_clean_startup_witness :
  (status (main default_flags broken_template_world) = Fatal /\
   listening (main default_flags broken_template_world) = false) /\
  listening (main default_flags calm_world) = true /\
  es_NewWriteService calm_world (writeCfg default_flags) = None.
Proof.
  split.
  - apply (proj1 (listener_only_after_clean_startup default_flags broken_template_world)).
    exists (EnsureIndexTemplate (templateCfg default_flags)).
    split; [vm_compute; tauto | vm_compute; discriminate].
  - split; [reflexivity|].
    apply (proj2 (listener_only_after_clean_startup default_flags calm_world)).
    reflexivity.
Defined.

(** ** Daily mode and the index service *)

(** C2, as stated, fails: with [es_url] empty the daily flag is false (its
    default) and yet no index service is constructed, because the run has
    already ended in "missing url". *)
Lemma index_service_needs_more_than_flag :
  indexDaily (flag_Parse empty_url_options) = false /\
  index_service_constructed (main (flag_Parse empty_url_options) calm_world) = false.
Proof. split; reflexivity. Qed.

(** C2, amended: [NewIndexService] is constructed exactly when daily mode
    is off and startup has got as far as the lifecycle step (URL present,
    client created, template applied); when it is constructed it carries
    the alias and the rollover policy MaxAge/MaxDocs/MaxSize; with daily
    mode on it is never constructed, and every write service that is
    constructed is told [Daily] = the flag. *)
Theorem index_service_iff_not_daily (f : Flags) (w : World) :
  (index_service_constructed (main f w) = true <->
     indexDaily f = false /\ reaches_lifecycle f w) /\
  (forall cfg, In (NewIndexService cfg) (trace (main f w)) -> cfg = indexCfg f) /\
  (forall cfg, In (NewWriteService cfg) (trace (main f w)) ->
     WriteConfig.Daily cfg = indexDaily f).
Proof.
  unfold reaches_lifecycle, index_service_constructed.
  split; [|split].
  - run_cases f w; lay_out; cbn; split;
      try discriminate; try (intros _; repeat split; auto; congruence);
      try (intros (? & ? & ? & ?); congruence);
      try (intros (? & ?); congruence).
  - intros cfg. run_cases f w; lay_out; cbn; intros Hin;
      repeat (destruct Hin as [Heq | Hin]; [try discriminate; congruence|]);
      destruct Hin.
  - intros cfg. run_cases f w; lay_out; cbn; intros Hin;
      repeat (destruct Hin as [Heq | Hin];
              [try discriminate; injection Heq as <-; cbn; congruence|]);
      destruct Hin.
Qed.

Lemma index_service_iff_not_daily_witness :
  index_service_constructed (main default_flags calm_world) = true /\
  index_service_constructed (main (flag_Parse daily_options) calm_world) = false /\
  WriteConfig.Daily (writeCfg (flag_Parse daily_options)) = true.
Proof.
  split; [|split].
  - apply (proj1 (index_service_iff_not_daily default_flags calm_world)).
    split; [reflexivity|].
    unfold reaches_lifecycle.
    split; [vm_compute; discriminate | split; reflexivity].
  - destruct (index_service_constructed (main (flag_Parse daily_options) calm_world))
      eqn:E; [|reflexivity].
    apply (proj1 (index_service_iff_not_daily (flag_Parse daily_options) calm_world)) in E.
    destruct E as [E _]. discriminate E.
  - apply (proj2 (proj2 (index_service_iff_not_daily (flag_Parse daily_options) calm_world))).
    vm_compute. tauto.
Defined.

(** ** The alias *)

(** C3: every index name handed to a component at construction (template
    provisioner, index service, read service, write service, and the
    services handed to the router) is the one alias string [es_alias];
    no call of [main] is given any other index name.  A run that starts
    the listener has handed out the alias five times in daily mode and six
    times otherwise, and nothing else. *)
Theorem components_share_alias (f : Flags) (w : World) :
  Forall (fun e => Forall (fun a => a = indexAlias f) (names_given e))
    (trace (main f w)) /\
  (listening (main f w) = true ->
     flat_map names_given (trace (main f w)) =
       repeat (indexAlias f) (if indexDaily f then 5 else 6)).
Proof.
  split.
  - run_cases f w; lay_out; repeat constructor.
  - unfold listening.
    run_cases f w; lay_out; cbn; try discriminate; reflexivity.
Qed.

Lemma components_share_alias_witness :
  flat_map names_given (trace (main (flag_Parse all_options) calm_world)) =
    ["metrics"; "metrics"; "metrics"; "metrics"; "metrics"; "metrics"].
Proof.
  exact (proj2 (components_share_alias (flag_Parse all_options) calm_world) eq_refl).
Defined.

(** ** Configuration surface *)

(** C7: for every command line, each call of the run carries exactly the
    options meant for it (given value or declared default): batch max
    age/docs/size and the worker count go to the write service, the
    rollover max age/docs/size to the index service, which exists only when
    the daily toggle is off (the toggle itself also reaches the write
    service as [Daily]), shards and replicas to the template, the result
    cap to the read service, URL and sniffing toggle to the store client;
    and a run that starts the listener has made every one of these calls. *)
Theorem options_reach_their_consumers (c : CommandLine) (w : World) :
  Forall (routed c w) (trace (main (flag_Parse c) w)) /\
  (listening (main (flag_Parse c) w) = true ->
     incl (consumers (flag_Parse c) w) (trace (main (flag_Parse c) w))).
Proof.
  remember (flag_Parse c) as f eqn:Hf.
  split.
  - run_cases f w; lay_out; subst f;
      repeat (constructor; [cbn in *; auto; fail|]); constructor.
  - unfold consumers, listening.
    run_cases f w; lay_out; cbn; try discriminate; intros _ e He;
      cbn in He;
      repeat (destruct He as [<- | He]; [cbn; tauto|]); destruct He.
Qed.

Lemma options_reach_their_consumers_witness :
  In (NewIndexService {| IndexConfig.Alias := "metrics"; IndexConfig.MaxAge := "1d";
                         IndexConfig.MaxDocs := 50000; IndexConfig.MaxSize := "5gb" |})
     (trace (main (flag_Parse all_options) calm_world)) /\
  In (NewWriteService {| WriteConfig.Alias := "metrics"; WriteConfig.Daily := false;
                         WriteConfig.MaxAge := 5; WriteConfig.MaxDocs := 500;
                         WriteConfig.MaxSize := 8192; WriteConfig.Workers := 4;
                         WriteConfig.Stats := false |})
     (trace (main (flag_Parse all_options) calm_world)).
Proof.
  pose proof (proj2 (options_reach_their_consumers all_options calm_world) eq_refl) as H.
  split; apply H; vm_compute; tauto.
Defined.

(** ** The store client *)

(** C8: the error of [aws_signing_client.New] never influences the run:
    the run is, call for call and in its exit, the run of the world in
    which the signing client came back without error; in particular, once
    the URL check is passed, [elastic.NewClient] is called with whatever
    client value came back, and if the remaining start-up calls succeed the
    listener is started although signing-client creation failed. *)
Theorem signing_error_never_inspected (f : Flags) (w : World) :
  main f w = main f (without_signing_error w) /\
  (url f <> "" -> In (ElasticNewClient (clientOpts f w)) (trace (main f w))) /\
  (signing_error w <> None ->
   url f <> "" ->
   elastic_NewClient w (clientOpts f w) = None ->
   es_EnsureIndexTemplate w (templateCfg f) = None ->
   index_err f w = None ->
   es_NewWriteService w (writeCfg f) = None ->
   listening (main f w) = true).
Proof.
  split; [|split].
  - rewrite !main_eq. reflexivity.
  - run_cases f w; lay_out; cbn; tauto.
  - intros _. unfold listening.
    run_cases f w; lay_out; cbn; try reflexivity; congruence.
Qed.

Lemma signing_error_never_inspected_witness :
  signing_error failing_signer_world = Some "a region is required" /\
  listening (main default_flags failing_signer_world) = true.
Proof.
  split; [reflexivity|].
  apply (proj2 (proj2 (signing_error_never_inspected default_flags failing_signer_world)));
    try reflexivity; vm_compute; discriminate.
Defined.




(** ** Template provisioning *)

Lemma EnsureIndexTemplate_again {Value : Type} (cfg : IndexTemplateConfig.t)
    (st : elasticsearch.Store Value) :
  fst (elasticsearch.EnsureIndexTemplate cfg st) = None ->
  elasticsearch.EnsureIndexTemplate cfg (snd (elasticsearch.EnsureIndexTemplate cfg st)) =
    (None, snd (elasticsearch.EnsureIndexTemplate cfg st)).
Proof.
  unfold elasticsearch.EnsureIndexTemplate.
  destruct (elasticsearch.available st) eqn:Hav; cbn; [intros _ | discriminate].
  rewrite insert_insert_eq. reflexivity.
Qed.

(** C6: once the template has been applied without error, applying it
    again with the same alias, shard count and replica count, any number
    of times, returns no error and leaves the store exactly as the first
    application left it. *)
Theorem template_reapplication_idempotent {Value : Type}
    (cfg : IndexTemplateConfig.t) (st : elasticsearch.Store Value) (n : nat) :
  fst (elasticsearch.EnsureIndexTemplate cfg st) = None ->
  elasticsearch.reapply n cfg (snd (elasticsearch.EnsureIndexTemplate cfg st)) =
    snd (elasticsearch.EnsureIndexTemplate cfg st) /\
  Forall (fun err => err = None)
    (elasticsearch.reapply_errors n cfg (snd (elasticsearch.EnsureIndexTemplate cfg st))).
Proof.
  intros Hok. pose proof (EnsureIndexTemplate_again cfg st Hok) as Hagain.
  induction n as [|n [IHs IHe]]; cbn.
  - split; [reflexivity | constructor].
  - rewrite Hagain. cbn. split; [exact IHs | constructor; [reflexivity | exact IHe]].
Qed.

Lemma template_reapplication_idempotent_witness :
  fst (elasticsearch.EnsureIndexTemplate (templateCfg default_flags) empty_store) = None /\
  elasticsearch.reapply 3 (templateCfg default_flags)
    (snd (elasticsearch.EnsureIndexTemplate (templateCfg default_flags) empty_store)) =
    snd (elasticsearch.EnsureIndexTemplate (templateCfg default_flags) empty_store).
Proof.
  split; [reflexivity|].
  exact (proj1 (template_reapplication_idempotent
                  (templateCfg default_flags) empty_store 3 eq_refl)).
Defined.

(** ** The read path *)

Lemma matching_spec {Value : Type} (st : elasticsearch.Store Value)
    (alias : string) (q : elasticsearch.Query Value) (s : elasticsearch.Sample Value) :
  In s (elasticsearch.matching st alias q) <->
  In s (default [] (elasticsearch.documents st !! alias)) /\
  elasticsearch.start_ms q <= elasticsearch.timestamp s <= elasticsearch.end_ms q /\
  Forall (fun m => m s = true) (elasticsearch.matchers q).
Proof.
  unfold elasticsearch.matching, elasticsearch.matches.
  rewrite filter_In, !andb_true_iff, !Z.leb_le, forallb_forall, List.Forall_forall.
  tauto.
Qed.




(** ** Shutdown *)

Lemma filter_split_Permutation {A : Type} (p : A -> bool) (l : list A) :
  List.filter p l ++ List.filter (fun a => negb (p a)) l ≡ₚ l.
Proof.
  induction l as [|a l IH]; cbn; [reflexivity|].
  destruct (p a); cbn.
  - constructor. exact IH.
  - rewrite <- Permutation_middle. constructor. exact IH.
Qed.

Lemma drain_accounts {Value : Type} (sd : elasticsearch.Shutdown Value)
    (ws : elasticsearch.WriteService Value) :
  elasticsearch.written (elasticsearch.drain sd ws) ++
  elasticsearch.lost (elasticsearch.drain sd ws) ≡ₚ
  elasticsearch.written ws ++ elasticsearch.lost ws ++ concat (elasticsearch.intake ws).
Proof.
  unfold elasticsearch.drain. cbn.
  pose proof (filter_split_Permutation (elasticsearch.accepted sd)
                (concat (take (elasticsearch.within_deadline sd)
                           (elasticsearch.intake ws)))) as HP.
  assert (Hcat : concat (elasticsearch.intake ws) =
                 (concat (take (elasticsearch.within_deadline sd) (elasticsearch.intake ws)) ++
                  concat (drop (elasticsearch.within_deadline sd) (elasticsearch.intake ws)))%list).
  { rewrite <- concat_app, take_drop. reflexivity. }
  rewrite Hcat.
  remember (concat (take (elasticsearch.within_deadline sd) (elasticsearch.intake ws)))
    as reached eqn:Hr.
  remember (List.filter (elasticsearch.accepted sd) reached) as ok eqn:Hok.
  remember (List.filter (fun s => negb (elasticsearch.accepted sd s)) reached)
    as rejected eqn:Hrej.
  clear Hr Hok Hrej Hcat. rewrite <- HP.
  solve_Permutation.
Qed.

Lemma Close_drains {Value : Type} (sd : elasticsearch.Shutdown Value)
    (ws : elasticsearch.WriteService Value) :
  elasticsearch.accepting (elasticsearch.Close sd ws) = false /\
  elasticsearch.batch (elasticsearch.Close sd ws) = [] /\
  elasticsearch.intake (elasticsearch.Close sd ws) = [] /\
  elasticsearch.written (elasticsearch.Close sd ws) ++
  elasticsearch.lost (elasticsearch.Close sd ws) ≡ₚ
  elasticsearch.written ws ++ elasticsearch.lost ws ++
  concat (elasticsearch.intake ws) ++ elasticsearch.batch ws.
Proof.
  unfold elasticsearch.Close.
  split; [|split; [|split]]; [ | | | rewrite drain_accounts];
    unfold elasticsearch.flush, elasticsearch.stop_accepting;
    destruct ws as [acc b i wr lo]; destruct b as [|s b]; cbn;
    try reflexivity.
  - rewrite app_nil_r. reflexivity.
  - rewrite concat_app. cbn. rewrite app_nil_r. reflexivity.
Qed.



(** ** The shape of every run *)

(** X1: when [elastic.NewClient] returns an error, the run ends in the
    fatal entry "Failed to create elastic client" carrying that error, right
    after the client call: no template is provisioned and no service is
    constructed. *)
Theorem client_failure_aborts_before_store_use (f : Flags) (w : World) (e : Error) :
  url f <> "" ->
  elastic_NewClient w (clientOpts f w) = Some e ->
  main f w =
    {| trace := ev_client f w ++
                [LogFatal "Failed to create elastic client" (Some e)];
       status := Fatal |}.
Proof.
  intros Hurl Hcl. rewrite main_eq. unfold main_unfolded.
  destruct (String.eqb_spec (url f) ""); [contradiction|].
  rewrite Hcl. reflexivity.
Qed.

Lemma client_failure_aborts_before_store_use_witness :
  trace (main default_flags unreachable_store_world) =
    [NewLogger false; LogInfo "Starting commit: abc, build: 1";
     NewEnvCredentials; NewSigner; AwsSigningClientNew "es" "eu-west-1";
     ElasticNewClient
       [SetURL "http://localhost:9200"; SetScheme "https";
        SetHttpClient (Some {| signed_service := "es"; signed_region := "eu-west-1" |});
        SetSniff false];
     LogFatal "Failed to create elastic client"
       (Some "no Elasticsearch node available")].
Proof.
  rewrite (client_failure_aborts_before_store_use default_flags
             unreachable_store_world "no Elasticsearch node available").
  - reflexivity.
  - vm_compute. discriminate.
  - reflexivity.
Defined.

(** X2: the deferred calls run only when [main] returns, and then both
    run once, [writeSvc.Close] before [client.Stop]; a run that ends in
    [log.Fatal], also one that had already created the client, and a run
    still serving make neither call. *)
Theorem deferred_calls_only_on_return (f : Flags) (w : World) :
  List.filter is_deferred_call (trace (main f w)) =
    match status (main f w) with
    | Returned => [WriteServiceClose; ClientStop]
    | _ => []
    end.
Proof.
  run_cases f w; lay_out; reflexivity.
Qed.

(** X3: for every run in which [flag.Parse] has returned: the run ends in
    [log.Fatal] exactly when it never reaches the call of
    [graceful.ListenAndServe] for [:8000]; when it reaches that call the
    end is decided by the call alone: [main] returns exactly when the call
    comes back after a shutdown, the process is still serving when it has
    not come back, and it is ended by the library, with exit code 1 and
    without a fatal entry of [main], when the listener cannot be started.
    No run of [main] returns without having made the call. *)
Theorem fatal_or_listening (f : Flags) (w : World) :
  (listening (main f w) = false <-> status (main f w) = Fatal) /\
  (status (main f w) = Returned <->
     listening (main f w) = true /\ graceful_outcome w = ServerClosed) /\
  (status (main f w) = Serving <->
     listening (main f w) = true /\ graceful_outcome w = StillServing) /\
  (status (main f w) = ListenExit <->
     listening (main f w) = true /\ graceful_outcome w = ListenFailed).
Proof.
  unfold listening.
  run_cases f w; lay_out; cbn;
    repeat split; try discriminate; try reflexivity; try assumption;
    try (intros [? ?]; congruence); intros; congruence.
Qed.


(** X5: for every run in which [flag.Parse] has returned: the run writes
    at most one fatal entry, and only as its last call; it ends through
    [log.Fatal] exactly when its last call is a fatal entry; and a process
    ended inside [graceful.ListenAndServe] has that call as its last and
    no fatal entry at all. *)
Theorem fatal_entry_is_last (f : Flags) (w : World) :
  existsb is_fatal (removelast (trace (main f w))) = false /\
  (status (main f w) = Fatal <->
     exists msg err, last (trace (main f w)) = Some (LogFatal msg err)) /\
  (status (main f w) = ListenExit ->
     existsb is_fatal (trace (main f w)) = false /\
     last (trace (main f w)) =
       Some (GracefulListenAndServe ":8000" (writeCfg f) (readCfg f))).
Proof.
  run_cases f w; lay_out; cbn; (split; [reflexivity|]);
    (split; [split; try discriminate; try (intros _; eauto; fail);
             try reflexivity; intros (msg & err & H); discriminate H
            | try discriminate; intros _; split; reflexivity]).
Qed.

Lemma fatal_entry_is_last_witness :
  status (main default_flags port_taken_world) = ListenExit /\
  existsb is_fatal (trace (main default_flags port_taken_world)) = false.
Proof.
  split; [reflexivity|].
  apply (proj2 (proj2 (fatal_entry_is_last default_flags port_taken_world))).
  reflexivity.
Defined.

(** X6: apart from the fatal entry, the calls of every run are an initial
    segment of the one full sequence: logger, start-up line, credentials,
    signer, signing client, store client, template, index service (unless
    daily), read service, write service, admin listener, public listener,
    [writeSvc.Close], [client.Stop].  No call is ever made out of this
    order or after a later one was skipped. *)
Theorem calls_in_program_order (f : Flags) (w : World) :
  prefix (List.filter (fun e => negb (is_fatal e)) (trace (main f w)))
         (full_run f w).
Proof.
  unfold prefix, full_run.
  run_cases f w; lay_out; cbn; eexists; reflexivity.
Qed.

(** X7: every fatal entry names the test that failed and carries the
    error that call returned: "missing url" without an error when the URL is
    empty, and otherwise the message of the failing constructor together
    with the error of exactly that constructor (the indexer only when daily
    mode is off). *)
Theorem fatal_entry_names_its_cause (f : Flags) (w : World) :
  Forall (explained f w) (trace (main f w)).
Proof.
  run_cases f w; lay_out;
    repeat (apply List.Forall_cons;
            [first [ exact I
                   | cbn; unfold fatal_cause;
                     first [ left; solve [repeat split; congruence]
                           | right; left; solve [repeat split; congruence]
                           | right; right; left; solve [repeat split; congruence]
                           | right; right; right; left;
                             solve [repeat split; congruence]
                           | right; right; right; right;
                             solve [repeat split; congruence] ] ]
            |]);
    apply List.Forall_nil.
Qed.

(** X9: in daily mode the index service is never consulted: whatever
    [NewIndexService] would return, also an error, the run is the same. *)
Theorem daily_mode_ignores_index_service (f : Flags) (w : World)
    (svc : IndexConfig.t -> option Error) :
  indexDaily f = true ->
  main f (with_NewIndexService w svc) = main f w.
Proof.
  intros H. rewrite !main_eq.
  unfold main_unfolded, index_err, ev_serve, ev_write, ev_index.
  rewrite H. reflexivity.
Qed.

Lemma daily_mode_ignores_index_service_witness :
  listening (main (flag_Parse daily_options)
               (with_NewIndexService calm_world (fun _ => Some "rollover: 500"))) = true.
Proof.
  rewrite (daily_mode_ignores_index_service (flag_Parse daily_options) calm_world
             (fun _ => Some "rollover: 500") eq_refl).
  reflexivity.
Defined.

(** X10: every run in which [flag.Parse] has returned, also one that
    then fails at once, first creates the logger with the debug flag and
    writes the start-up line with commit and build. *)
Theorem version_logged_first (f : Flags) (w : World) :
  take 2 (trace (main f w)) =
    [NewLogger (debug f);
     LogInfo ("Starting commit: " ++ Commit w ++ ", build: " ++ Build w)].
Proof.
  run_cases f w; lay_out; reflexivity.
Qed.
